(** * AuthService: registration, login and lookup over a document store

    A shallow embedding of [AuthService] (auth.service.ts) and of the
    validation metadata of [RegisterUserDto] (dto/register-user.dto.ts).

    JavaScript objects are finite maps from field names to values; the
    service runs in a small state-and-exception monad over a [World] that
    holds the users collection, the console and the position in the
    platform's sources of fresh values.  The libraries the service calls
    (bcryptjs, JwtService, Math.random, the ObjectId and clock of the driver)
    are the fields of the [Platform] class. *)

From Stdlib Require Import QArith Qround.
From Equations Require Import Equations.
From stdpp Require Import gmap strings list fin_maps pretty.

Close Scope Q_scope.
Open Scope string_scope.

(** ** JavaScript objects *)

(** An object whose fields hold strings: the DTO classes declare every field
    [string], and identifiers and timestamps appear in their [toJSON] form.
    A field that is absent reads as [undefined], here [None]. *)
Abbreviation Obj := (gmap string string).

(** [`${v}`] for a field read. *)
Definition template (v : option string) : string :=
  match v with
  | Some s => s
  | None => "undefined"
  end.

(** [typeof v] for a field read. *)
Definition typeof (v : option string) : string :=
  match v with
  | Some _ => "string"
  | None => "undefined"
  end.

(** [{ first, ...rest }]: keys of the spread, written later, win. *)
Definition spread_after (first rest : Obj) : Obj := rest ∪ first.

(** [s.charAt(i)]: the empty string out of range. *)
Definition charAt (s : string) (i : Z) : string :=
  if (i <? 0)%Z then ""
  else match String.get (Z.to_nat i) s with
       | Some c => String c ""
       | None => ""
       end.

Definition Math_floor (x : Q) : Z := Qfloor x.

(** ** Thrown values *)

Inductive Exception : Type :=
  | BadRequestException (message : string)
  | InternalServerErrorException (message : string)
  | NotFoundException (message : string)
  | UnauthorizedException (message : string)
  | MongoServerError (code : Z) (message : string)
  | TypeError (message : string)
  | Error (message : string).

(** [error.code] *)
Definition error_code (error : Exception) : option Z :=
  match error with
  | MongoServerError code _ => Some code
  | _ => None
  end.

(** [error.response], the body of an HttpException: status code and message. *)
Definition error_response (error : Exception) : option (Z * string) :=
  match error with
  | BadRequestException m => Some (400%Z, m)
  | InternalServerErrorException m => Some (500%Z, m)
  | NotFoundException m => Some (404%Z, m)
  | UnauthorizedException m => Some (401%Z, m)
  | _ => None
  end.

(** ** The world and the monad of the service *)

Record World : Type := mkWorld {
  users : list Obj;                  (* the users collection, in insertion order *)
  store_fault : option Exception;    (* [Some e]: the store answers every call with [e] *)
  console : list string;             (* lines written by console.log, oldest first *)
  ticks : nat                        (* fresh values drawn from the platform so far *)
}.

Inductive Outcome (A : Type) : Type :=
  | Return (a : A)
  | Throw (error : Exception).
Arguments Return {A} a.
Arguments Throw {A} error.

Definition M (A : Type) : Type := World -> Outcome A * World.

Definition ret {A} (a : A) : M A := fun w => (Return a, w).
Definition throw {A} (error : Exception) : M A := fun w => (Throw error, w).
Definition bind {A B} (m : M A) (k : A -> M B) : M B :=
  fun w => match m w with
           | (Return a, w') => k a w'
           | (Throw error, w') => (Throw error, w')
           end.
Definition try_catch {A} (body : M A) (handler : Exception -> M A) : M A :=
  fun w => match body w with
           | (Return a, w') => (Return a, w')
           | (Throw error, w') => handler error w'
           end.

Notation "x <- m ;; k" := (bind m (fun x => k))
  (at level 100, m at next level, right associativity).
Notation "m ;;; k" := (bind m (fun _ => k))
  (at level 100, right associativity).

(** The next fresh position of the platform's sources. *)
Definition tick : M nat :=
  fun w => (Return (ticks w),
            mkWorld (users w) (store_fault w) (console w) (S (ticks w))).

Definition console_log (line : string) : M unit :=
  fun w => (Return tt,
            mkWorld (users w) (store_fault w) (console w ++ [line]) (ticks w)).

(** ** The libraries the service calls *)

Class Platform : Type := {
  (* bcryptjs: the hash of a secret at a cost, with the salt drawn at a tick *)
  bcrypt_hash : string -> nat -> nat -> string;
  (* bcryptjs: does the secret match the hash *)
  bcrypt_compare : string -> string -> bool;
  (* JwtService.sign *)
  jwt_sign : Obj -> string;
  (* Math.random: the value of the draw made at a tick, taken as an exact
     rational; the service only uses the floor of its product with 62 *)
  random_at : nat -> Q;
  (* the identifier and the timestamp the driver assigns at a tick *)
  ObjectId : nat -> string;
  Date_now : nat -> string
}.

(** ** dto/register-user.dto.ts *)

Module Validator.

(** The class-validator decorators the DTO uses. *)
Inductive Constraint : Type :=
  | IsString
  | MinLength (min : nat).

#[global] Instance Constraint_eq_dec : EqDecision Constraint.
Proof. solve_decision. Defined.

Definition satisfies (v : option string) (c : Constraint) : bool :=
  match c, v with
  | IsString, Some _ => true
  | MinLength min, Some s => Nat.leb min (String.length s)
  | _, None => false
  end.

(** The decorated properties of a class, in declaration order. *)
Definition Metadata : Type := list (string * list Constraint).

(** The constraints an object violates, per property. *)
Definition validate (meta : Metadata) (o : Obj) : list (string * Constraint) :=
  flat_map
    (fun '(property, cs) =>
       map (fun c => (property, c))
           (filter (fun c => satisfies (o !! property) c = false) cs))
    meta.

Definition RegisterUserDto : Metadata :=
  [ ("name", [IsString]);
    ("email", [IsString; MinLength 3]);
    ("password", [MinLength 6]) ].

End Validator.

(** ** The users collection

    Modelled from the spec: the User entity (./entities/user.entity) and the
    mongoose model built from it are not under src/.  The store is the keyed
    store of the specification's AccountStore: a record is an Account with a
    store-assigned [_id] and [createdAt] next to the fields it was built
    from; [save] is insertUnique on the identity key [email], answering a
    duplicate with the driver's error code 11000; [findOne], [find] and
    [findById] match fields by equality.  A store that is down answers every
    call with its fault. *)

Definition with_store {A} (query : list Obj -> M A) : M A :=
  fun w => match store_fault w with
           | Some fault => (Throw fault, w)
           | None => query (users w) w
           end.

Definition has_email (email : option string) (doc : Obj) : Prop :=
  doc !! "email" = email.

Definition has_id (id : string) (doc : Obj) : Prop :=
  doc !! "_id" = Some id.

#[global] Instance has_email_dec email doc : Decision (has_email email doc).
Proof. unfold has_email. apply _. Defined.

#[global] Instance has_id_dec id doc : Decision (has_id id doc).
Proof. unfold has_id. apply _. Defined.

Section Service.
Context {platform : Platform}.

(** [new this.userModel(fields)] *)
Definition new_userModel (fields : Obj) : M Obj :=
  t <- tick ;;
  ret (<["_id" := ObjectId t]> (<["createdAt" := Date_now t]> fields)).

(** [doc.save()] *)
Definition save (doc : Obj) : M unit :=
  with_store (fun docs =>
    if decide (Exists (has_email (doc !! "email")) docs)
    then throw (MongoServerError 11000 "E11000 duplicate key error")
    else fun w => (Return tt,
                   mkWorld (docs ++ [doc]) (store_fault w) (console w) (ticks w))).

(** [this.userModel.findOne({ email })] *)
Definition findOne (email : option string) : M (option Obj) :=
  with_store (fun docs => ret (head (filter (has_email email) docs))).

(** [this.userModel.find()] *)
Definition find_all : M (list Obj) :=
  with_store (fun docs => ret docs).

(** [this.userModel.find({ email })] *)
Definition find (email : option string) : M (list Obj) :=
  with_store (fun docs => ret (filter (has_email email) docs)).

(** [this.userModel.findById(id)] *)
Definition findById (id : string) : M (option Obj) :=
  with_store (fun docs => ret (head (filter (has_id id) docs))).

(** [doc.toJSON()] *)
Definition toJSON (doc : Obj) : Obj := doc.

(** [bcryptjs.hashSync(s, rounds)] *)
Definition hashSync (s : option string) (rounds : nat) : M string :=
  match s with
  | Some secret => t <- tick ;; ret (bcrypt_hash secret rounds t)
  | None => throw (Error ("Illegal arguments: " +:+ typeof s +:+ ", number"))
  end.

(** [bcryptjs.compareSync(s, hash)] *)
Definition compareSync (s hash : option string) : M bool :=
  match s, hash with
  | Some secret, Some h => ret (bcrypt_compare secret h)
  | _, _ => throw (Error ("Illegal arguments: " +:+ typeof s +:+ ", " +:+ typeof hash))
  end.

(** [Math.random()] *)
Definition Math_random : M Q :=
  t <- tick ;; ret (random_at t).

(** ** auth.service.ts *)

Record LoginResponse : Type := mkLoginResponse {
  user : Obj;
  token : string
}.

(** [{ name: v }], a field holding [undefined] being no field. *)
Definition field (name : string) (v : option string) : Obj :=
  match v with
  | Some s => {[ name := s ]}
  | None => ∅
  end.

Definition getJwtToken (payload : Obj) : string := jwt_sign payload.

Definition banco : string :=
  "ABCDEFGHIJKLMNOPQRSTUVWXYZabcdefghijklmnopqrstuvwxyz0123456789".

(** The loop of [createRandomPassword]: [todo] rounds are left to run. *)
Fixpoint createRandomPassword_loop (todo : nat) (pass : string) : M string :=
  match todo with
  | O => ret pass
  | S todo' =>
      r <- Math_random ;;
      createRandomPassword_loop todo'
        (pass +:+ charAt banco
           (Math_floor (Qmult r (inject_Z (Z.of_nat (String.length banco))))))
  end.

Definition createRandomPassword (longitud : nat) : M string :=
  createRandomPassword_loop longitud "".

(** [createRandomPassword] at any finite number, the parameter being
    declared [number]: the loop [for (let x = 0; x < longitud; x++)] with
    its own test, [x] rounds being done.  At a natural number it is
    [createRandomPassword] above. *)
Equations? createRandomPassword_from (longitud : Q) (x : nat) (pass : string) :
    M string by wf (Z.to_nat (Qceiling longitud) - x)%nat lt :=
  createRandomPassword_from longitud x pass
    with Qlt_le_dec (inject_Z (Z.of_nat x)) longitud := {
    | left _ :=
        r <- Math_random ;;
        createRandomPassword_from longitud (S x)
          (pass +:+ charAt banco
             (Math_floor (Qmult r (inject_Z (Z.of_nat (String.length banco))))));
    | right _ := ret pass }.
Proof.
  assert (Z.of_nat x < Qceiling longitud)%Z; [|lia].
  rewrite Zlt_Qlt. eapply Qlt_le_trans; [eassumption | apply Qle_ceiling].
Qed.

Definition createRandomPassword_number (longitud : Q) : M string :=
  createRandomPassword_from longitud 0 "".

Definition create (createUserDto : Obj) : M Obj :=
  try_catch
    (let password := createUserDto !! "password" in
     let userData := delete "password" createUserDto in
     hashed <- hashSync password 10 ;;
     newUser <- new_userModel (spread_after {[ "password" := hashed ]} userData) ;;
     save newUser ;;;
     ret (delete "password" (toJSON newUser)))
    (fun error =>
       if decide (error_code error = Some 11000%Z)
       then throw (BadRequestException
                     (template (createUserDto !! "email") +:+ " already exist!"))
       else throw (InternalServerErrorException
                     "Something went wrong with the server!")).

Definition register (registerUserDto : Obj) : M LoginResponse :=
  try_catch
    (password <- createRandomPassword 8 ;;
     console_log password ;;;
     user <- create (spread_after {[ "password" := password ]} registerUserDto) ;;
     ret {| user := user; token := getJwtToken (field "id" (user !! "_id")) |})
    (fun error =>
       match error_response error with
       | Some (statusCode, message) =>
           if decide (statusCode = 400%Z)
           then throw (BadRequestException message)
           else throw (InternalServerErrorException "Internal server error")
       | None =>
           throw (TypeError
                    "Cannot read properties of undefined (reading 'statusCode')")
       end).

Definition login (loginDto : Obj) : M LoginResponse :=
  let email := loginDto !! "email" in
  let password := loginDto !! "password" in
  found <- findOne email ;;
  match found with
  | None => throw (UnauthorizedException "Not valid credentials")
  | Some user =>
      matches <- compareSync password (user !! "password") ;;
      if negb matches
      then throw (UnauthorizedException "Not valid credentials")
      else
        let rest := delete "password" (toJSON user) in
        ret {| user := rest; token := getJwtToken (field "id" (user !! "_id")) |}
  end.

Definition findAll : M (list Obj) :=
  results <- find_all ;;
  ret (map (fun res => delete "password" (toJSON res)) results).

Definition searchEmail (email : string) : M (list Obj) :=
  if decide (email = "")
  then ret []
  else
    results <- find (Some email) ;;
    ret (map (fun element =>
                let email := toJSON element !! "email" in
                field "email" email)
             results).

Definition findUserById (id : string) : M Obj :=
  found <- findById id ;;
  match found with
  | None =>
      throw (TypeError "Cannot read properties of null (reading 'toJSON')")
  | Some user => ret (delete "password" (toJSON user))
  end.

End Service.

(** ** Vocabulary of the statements *)

(** The store answers. *)
Definition healthy (w : World) : Prop := store_fault w = None.

(** Some account is registered under the identity key. *)
Definition registered (email : option string) (w : World) : Prop :=
  Exists (has_email email) (users w).

(** The world after [n] more fresh values were drawn. *)
Definition advance (n : nat) (w : World) : World :=
  mkWorld (users w) (store_fault w) (console w) (n + ticks w).

(** The world after one more document was inserted. *)
Definition inserted (doc : Obj) (w : World) : World :=
  mkWorld (users w ++ [doc]) (store_fault w) (console w) (ticks w).

(** A draw of Math.random lies in [0, 1). *)
Definition unit_draw (r : Q) : Prop := Qle 0 r /\ Qlt r 1.

(** Upper-case letter, lower-case letter or digit. *)
Definition alphanumeric_char (c : Ascii.ascii) : bool :=
  let n := Ascii.nat_of_ascii c in
  (Nat.leb 48 n && Nat.leb n 57) || (Nat.leb 65 n && Nat.leb n 90)
  || (Nat.leb 97 n && Nat.leb n 122).

Definition alphanumeric (s : string) : Prop :=
  forallb alphanumeric_char (String.list_ascii_of_string s) = true.

(** The input of [create] with its three fields, and the input of [login]. *)
Definition createUserDto (name email password : string) : Obj :=
  {[ "name" := name; "email" := email; "password" := password ]}.

Definition loginDto (email password : string) : Obj :=
  {[ "email" := email; "password" := password ]}.

Section Vocabulary.
Context {platform : Platform}.

(** The document [create] builds from a DTO whose secret is [secret], when
    the world stands at tick [t]. *)
Definition account_of (dto : Obj) (secret : string) (t : nat) : Obj :=
  <["_id" := ObjectId (S t)]>
    (<["createdAt" := Date_now (S t)]>
       (spread_after {[ "password" := bcrypt_hash secret 10 t ]}
                     (delete "password" dto))).

(** bcryptjs verifies what it hashed. *)
Definition bcrypt_roundtrip : Prop :=
  forall secret rounds t,
    bcrypt_compare secret (bcrypt_hash secret rounds t) = true.

End Vocabulary.

(** The rounds the loop of [createRandomPassword] makes for a bound: the
    natural numbers below it. *)
Definition loop_rounds (longitud : Q) : nat := Z.to_nat (Qceiling longitud).

(** ** A small platform to run the service on *)

Module Demo.

#[export] Instance platform : Platform := {|
  bcrypt_hash secret rounds t :=
    secret +:+ "$" +:+ pretty rounds +:+ "$" +:+ pretty t;
  bcrypt_compare secret hash := String.prefix (secret +:+ "$") hash;
  jwt_sign payload := "jwt." +:+ template (payload !! "id");
  random_at t := Qmake (Z.of_nat ((17 * t + 5) mod 97)) 97;
  ObjectId t := "oid" +:+ pretty t;
  Date_now t := "t" +:+ pretty t
|}.

Definition empty_world : World := mkWorld [] None [] 0.

Definition ann : Obj := createUserDto "Ann" "Ann@X.io" "s3cret!".

Definition ann_lower : Obj := createUserDto "Ann" "ann@x.io" "s3cret!".

Definition bob_short : Obj := createUserDto "Bob" "bob@x.io" "abc".

Definition cat_no_secret : Obj :=
  {[ "name" := "Cat"; "email" := "cat@x.io" ]}.

(** The world after Ann registered herself. *)
Definition ann_world : World := snd (create ann empty_world).

(** The account the store holds for her. *)
Definition ann_account : Obj := account_of ann "s3cret!" 0.

(** The same world with the store unreachable. *)
Definition down_world : World :=
  mkWorld (users ann_world) (Some (Error "connect ETIMEDOUT"))
          (console ann_world) (ticks ann_world).

End Demo.

(** * Properties *)

(** Closed decidable facts are settled by evaluation. *)
Ltac by_evaluation :=
  lazymatch goal with
  | |- ~ ?P => apply (bool_decide_eq_false_1 P); vm_compute; reflexivity
  | |- ?P => apply (bool_decide_unpack P); vm_compute; exact I
  end.

(** ** The store *)

Lemma with_store_healthy {A} (query : list Obj -> M A) (w : World) :
  healthy w -> with_store query w = query (users w) w.
Proof. unfold healthy, with_store. by intros ->. Qed.

Lemma with_store_fault {A} (query : list Obj -> M A) (w : World) fault :
  store_fault w = Some fault -> with_store query w = (Throw fault, w).
Proof. unfold with_store. by intros ->. Qed.

Lemma filter_none {A} (P : A -> Prop) `{!forall x, Decision (P x)} (l : list A) :
  ~ Exists P l -> filter P l = [].
Proof.
  induction l as [|x l IH]; intros Hno; [done|].
  rewrite filter_cons. destruct (decide (P x)) as [Hx|Hx].
  - destruct Hno. by left.
  - apply IH. intros Hl. apply Hno. by right.
Qed.

Lemma findOne_unregistered (email : option string) (w : World) :
  healthy w -> ~ registered email w -> findOne email w = (Return None, w).
Proof.
  intros Hw Hno. unfold findOne. rewrite with_store_healthy by done.
  unfold ret. by rewrite filter_none.
Qed.

Lemma findOne_first (email : option string) (account : Obj) (w : World) :
  healthy w -> head (filter (has_email email) (users w)) = Some account ->
  findOne email w = (Return (Some account), w).
Proof.
  intros Hw Hhead. unfold findOne. rewrite with_store_healthy by done.
  unfold ret. by rewrite Hhead.
Qed.

Lemma findById_absent (id : string) (w : World) :
  healthy w -> ~ Exists (has_id id) (users w) ->
  findById id w = (Return None, w).
Proof.
  intros Hw Hno. unfold findById. rewrite with_store_healthy by done.
  unfold ret. by rewrite filter_none.
Qed.

(** ** Lookups *)

(** C9: searchEmail called with the empty query returns the empty sequence
    and leaves the world as it was, whatever the collection holds: the store
    is not consulted. *)
Theorem searchEmail_empty_query (w : World) :
  searchEmail "" w = (Return [], w).
Proof. reflexivity. Qed.

Lemma field_email_of_match (key : string) (doc : Obj) :
  has_email (Some key) doc -> field "email" (toJSON doc !! "email") = {[ "email" := key ]}.
Proof. unfold has_email, toJSON. by intros ->. Qed.

(** C7, as the code has it: for a non-empty key and a store that answers,
    searchEmail returns one object per account whose email equals the key,
    and that object holds the email field alone. *)
Theorem searchEmail_returns_email_only (key : string) (w : World) :
  key <> "" -> healthy w ->
  searchEmail key w =
    (Return (map (fun _ => {[ "email" := key ]})
                 (filter (has_email (Some key)) (users w))), w).
Proof.
  intros Hkey Hw. unfold searchEmail.
  destruct (decide (key = "")) as [|_]; [done|].
  unfold bind, find. rewrite with_store_healthy by done. unfold ret.
  do 2 f_equal. apply map_ext_in. intros doc Hdoc.
  apply field_email_of_match.
  apply list_elem_of_In, list_elem_of_filter in Hdoc. tauto.
Qed.

(** The search on Ann's world: one match, reduced to its email. *)
Lemma searchEmail_returns_email_only_witness :
  searchEmail "Ann@X.io" Demo.ann_world =
    (Return [ {[ "email" := "Ann@X.io" ]} ], Demo.ann_world).
Proof.
  rewrite (searchEmail_returns_email_only "Ann@X.io" Demo.ann_world);
    [vm_compute; reflexivity | discriminate | reflexivity].
Defined.

(** C7 fails as stated: Ann's account matches the key, yet what searchEmail
    returns for it is not her public view; it has no id, no name and no
    creation time. *)
Lemma searchEmail_not_public_view :
  exists found,
    fst (searchEmail "Ann@X.io" Demo.ann_world) = Return [found]
    /\ filter (has_email (Some "Ann@X.io")) (users Demo.ann_world)
       = [@account_of Demo.platform Demo.ann "s3cret!" 0]
    /\ found <> delete "password" (@account_of Demo.platform Demo.ann "s3cret!" 0)
    /\ found !! "_id" = None /\ found !! "name" = None
    /\ found !! "createdAt" = None.
Proof.
  exists {[ "email" := "Ann@X.io" ]}.
  repeat split; try (vm_compute; reflexivity).
  intros Heq. apply (f_equal (fun o : Obj => o !! "name")) in Heq.
  vm_compute in Heq. discriminate.
Qed.

(** The failing lookup in general: on a store that answers and holds no
    account with the id, findUserById dereferences null. *)
Lemma findUserById_absent (id : string) (w : World) :
  healthy w -> ~ Exists (has_id id) (users w) ->
  findUserById id w =
    (Throw (TypeError "Cannot read properties of null (reading 'toJSON')"), w).
Proof.
  intros Hw Hno. unfold findUserById, bind.
  by rewrite findById_absent.
Qed.

(** C5 at a concrete input: Ann's world holds no account with the id, and
    findUserById fails with a TypeError, which is not the NotFound error. *)
Theorem findUserById_unknown_id_TypeError :
  ~ Exists (has_id "650000000000000000000000") (users Demo.ann_world)
  /\ fst (findUserById "650000000000000000000000" Demo.ann_world)
     = Throw (TypeError "Cannot read properties of null (reading 'toJSON')")
  /\ forall message,
       fst (findUserById "650000000000000000000000" Demo.ann_world)
       <> Throw (NotFoundException message).
Proof.
  assert (Hno : ~ Exists (has_id "650000000000000000000000")
                    (users Demo.ann_world)).
  { by_evaluation. }
  split; [exact Hno|].
  rewrite findUserById_absent by (done || reflexivity).
  split; [reflexivity | discriminate].
Qed.

(** ** Login *)

Section Login.
Context {platform : Platform}.

Lemma login_unknown_email (dto : Obj) (w : World) :
  healthy w -> ~ registered (dto !! "email") w ->
  login dto w = (Throw (UnauthorizedException "Not valid credentials"), w).
Proof.
  intros Hw Hno. unfold login, bind.
  by rewrite findOne_unregistered.
Qed.

Lemma login_wrong_password (dto account : Obj) (secret hash : string) (w : World) :
  healthy w ->
  head (filter (has_email (dto !! "email")) (users w)) = Some account ->
  dto !! "password" = Some secret ->
  account !! "password" = Some hash ->
  bcrypt_compare secret hash = false ->
  login dto w = (Throw (UnauthorizedException "Not valid credentials"), w).
Proof.
  intros Hw Hfind Hsecret Hhash Hcmp. unfold login, bind.
  rewrite (findOne_first _ account) by done.
  rewrite Hsecret, Hhash. cbn. unfold ret. by rewrite Hcmp.
Qed.

Lemma login_right_password (dto account : Obj) (secret hash : string) (w : World) :
  healthy w ->
  head (filter (has_email (dto !! "email")) (users w)) = Some account ->
  dto !! "password" = Some secret ->
  account !! "password" = Some hash ->
  bcrypt_compare secret hash = true ->
  login dto w =
    (Return {| user := delete "password" account;
               token := jwt_sign (field "id" (account !! "_id")) |}, w).
Proof.
  intros Hw Hfind Hsecret Hhash Hcmp. unfold login, bind.
  rewrite (findOne_first _ account) by done.
  rewrite Hsecret, Hhash. cbn. unfold ret. by rewrite Hcmp.
Qed.

End Login.

(** C10: a login that fails because no account has the identity key and a
    login that fails because the secret does not match the stored hash throw
    the same value, UnauthorizedException('Not valid credentials'), and both
    leave the world as it was. *)
Theorem login_failures_indistinguishable `{Platform}
    (unknown wrong account : Obj) (secret hash : string) (w1 w2 : World) :
  healthy w1 -> ~ registered (unknown !! "email") w1 ->
  healthy w2 ->
  head (filter (has_email (wrong !! "email")) (users w2)) = Some account ->
  wrong !! "password" = Some secret ->
  account !! "password" = Some hash ->
  bcrypt_compare secret hash = false ->
  login unknown w1 = (Throw (UnauthorizedException "Not valid credentials"), w1)
  /\ login wrong w2 = (Throw (UnauthorizedException "Not valid credentials"), w2)
  /\ fst (login unknown w1) = fst (login wrong w2).
Proof.
  intros Hw1 Hno Hw2 Hfind Hsecret Hhash Hcmp.
  pose proof (login_unknown_email unknown w1 Hw1 Hno) as H1.
  pose proof (login_wrong_password wrong account secret hash w2
                Hw2 Hfind Hsecret Hhash Hcmp) as H2.
  rewrite H1, H2. done.
Qed.

(** On Ann's world: Bob is unknown, and Ann's key with another secret is a
    wrong password. *)
Lemma login_failures_indistinguishable_witness :
  @login Demo.platform Demo.bob_short Demo.ann_world
    = (Throw (UnauthorizedException "Not valid credentials"), Demo.ann_world)
  /\ @login Demo.platform (<["password" := "guess"]> Demo.ann) Demo.ann_world
    = (Throw (UnauthorizedException "Not valid credentials"), Demo.ann_world)
  /\ fst (@login Demo.platform Demo.bob_short Demo.ann_world)
     = fst (@login Demo.platform (<["password" := "guess"]> Demo.ann) Demo.ann_world).
Proof.
  apply (@login_failures_indistinguishable Demo.platform
           Demo.bob_short (<["password" := "guess"]> Demo.ann)
           (@account_of Demo.platform Demo.ann "s3cret!" 0)
           "guess" "s3cret!$10$0" Demo.ann_world Demo.ann_world).
  - reflexivity.
  - by_evaluation.
  - reflexivity.
  - vm_compute. reflexivity.
  - vm_compute. reflexivity.
  - vm_compute. reflexivity.
  - vm_compute. reflexivity.
Defined.

(** ** Account creation *)

Section Create.
Context {platform : Platform}.

Lemma account_of_password dto secret t :
  account_of dto secret t !! "password" = Some (bcrypt_hash secret 10 t).
Proof.
  unfold account_of, spread_after.
  rewrite !lookup_insert_ne by done.
  rewrite lookup_union_r by apply lookup_delete_eq.
  apply lookup_singleton_eq.
Qed.

Lemma account_of_other dto secret t (name : string) :
  name <> "_id" -> name <> "createdAt" -> name <> "password" ->
  account_of dto secret t !! name = dto !! name.
Proof.
  intros Hid Hat Hpw. unfold account_of, spread_after.
  rewrite !lookup_insert_ne by done.
  rewrite lookup_union_l by (by apply lookup_singleton_ne).
  by apply lookup_delete_ne.
Qed.

Lemma account_of_email dto secret t :
  account_of dto secret t !! "email" = dto !! "email".
Proof. by apply account_of_other. Qed.

Lemma account_of_id dto secret t :
  account_of dto secret t !! "_id" = Some (ObjectId (S t)).
Proof. unfold account_of. apply lookup_insert_eq. Qed.

(** What the try block of [create] does once the secret is hashed. *)
Lemma create_run (dto : Obj) (secret : string) (w : World) :
  dto !! "password" = Some secret ->
  create dto w =
    let doc := account_of dto secret (ticks w) in
    match store_fault w with
    | Some fault =>
        (Throw (if decide (error_code fault = Some 11000%Z)
                then BadRequestException
                       (template (dto !! "email") +:+ " already exist!")
                else InternalServerErrorException
                       "Something went wrong with the server!"),
         advance 2 w)
    | None =>
        if decide (registered (dto !! "email") w)
        then (Throw (BadRequestException
                       (template (dto !! "email") +:+ " already exist!")),
              advance 2 w)
        else (Return (delete "password" doc), inserted doc (advance 2 w))
    end.
Proof.
  intros Hsecret. unfold create, try_catch, bind. rewrite Hsecret. cbn.
  unfold save, with_store. cbn. fold (account_of dto secret (ticks w)).
  destruct (store_fault w) as [fault|] eqn:Hfault.
  - unfold advance, throw. cbn. rewrite Hfault.
    by destruct (decide (error_code fault = Some 11000%Z)).
  - rewrite account_of_email. unfold registered.
    destruct (decide (Exists (has_email (dto !! "email")) (users w))).
    + unfold advance, throw. cbn. by rewrite Hfault.
    + unfold inserted, advance. cbn. by rewrite Hfault.
Qed.

(** Without a secret the hash call throws and nothing else happens. *)
Lemma create_without_secret (dto : Obj) (w : World) :
  dto !! "password" = None ->
  create dto w =
    (Throw (InternalServerErrorException
              "Something went wrong with the server!"), w).
Proof. intros Hnone. unfold create, try_catch, bind. by rewrite Hnone. Qed.

Lemma create_fresh (dto : Obj) (secret : string) (w : World) :
  dto !! "password" = Some secret ->
  healthy w -> ~ registered (dto !! "email") w ->
  create dto w =
    (Return (delete "password" (account_of dto secret (ticks w))),
     inserted (account_of dto secret (ticks w)) (advance 2 w)).
Proof.
  intros Hsecret Hw Hfree. rewrite (create_run dto secret) by done. cbn.
  rewrite Hw. by destruct (decide (registered (dto !! "email") w)).
Qed.

End Create.

(** C3: when the store rejects the insert because the identity key is taken,
    create fails with BadRequestException naming that key, and nothing is
    inserted; when the store fails with any error whose code is not 11000,
    create fails with InternalServerErrorException; and whatever create
    throws is one of these two exceptions, never the store's own error. *)
Theorem create_wraps_store_errors `{Platform} (dto : Obj) (w : World) :
  (forall secret, dto !! "password" = Some secret ->
     (healthy w -> registered (dto !! "email") w ->
        create dto w =
          (Throw (BadRequestException
                    (template (dto !! "email") +:+ " already exist!")),
           advance 2 w))
     /\ (forall fault, store_fault w = Some fault ->
           error_code fault = Some 11000%Z ->
           create dto w =
             (Throw (BadRequestException
                       (template (dto !! "email") +:+ " already exist!")),
              advance 2 w))
     /\ (forall fault, store_fault w = Some fault ->
           error_code fault <> Some 11000%Z ->
           create dto w =
             (Throw (InternalServerErrorException
                       "Something went wrong with the server!"),
              advance 2 w)))
  /\ (forall error, fst (create dto w) = Throw error ->
        error = BadRequestException
                  (template (dto !! "email") +:+ " already exist!")
        \/ error = InternalServerErrorException
                     "Something went wrong with the server!").
Proof.
  split.
  - intros secret Hsecret. rewrite (create_run dto secret) by done. cbn.
    repeat split.
    + intros Hw Hreg. rewrite Hw.
      by destruct (decide (registered (dto !! "email") w)).
    + intros fault -> Hcode.
      by destruct (decide (error_code fault = Some 11000%Z)).
    + intros fault -> Hcode.
      by destruct (decide (error_code fault = Some 11000%Z)).
  - intros error. destruct (dto !! "password") as [secret|] eqn:Hsecret.
    + rewrite (create_run dto secret) by done. cbn.
      destruct (store_fault w) as [fault|].
      * destruct (decide (error_code fault = Some 11000%Z));
          cbn; intros [= <-]; auto.
      * destruct (decide (registered (dto !! "email") w));
          cbn; [intros [= <-]; auto | discriminate].
    + rewrite create_without_secret by done. cbn. intros [= <-]. auto.
Qed.

(** Ann registering again is a duplicate; with the store down the timeout
    is wrapped. *)
Lemma create_wraps_store_errors_witness :
  @create Demo.platform Demo.ann Demo.ann_world
    = (Throw (BadRequestException "Ann@X.io already exist!"),
       advance 2 Demo.ann_world)
  /\ @create Demo.platform Demo.ann Demo.down_world
    = (Throw (InternalServerErrorException
                "Something went wrong with the server!"),
       advance 2 Demo.down_world).
Proof.
  destruct (@create_wraps_store_errors Demo.platform Demo.ann Demo.ann_world)
    as [Hann _].
  destruct (@create_wraps_store_errors Demo.platform Demo.ann Demo.down_world)
    as [Hdown _].
  split.
  - apply (Hann "s3cret!"); [reflexivity | reflexivity | by_evaluation].
  - apply (Hdown "s3cret!" eq_refl) with (fault := Error "connect ETIMEDOUT");
      [reflexivity | discriminate].
Defined.

(** ** The minimum length of a secret *)

Lemma validate_password_rule (dto : Obj) :
  In ("password", Validator.MinLength 6)
     (Validator.validate Validator.RegisterUserDto dto)
  <-> match dto !! "password" with
      | Some secret => (String.length secret < 6)%nat
      | None => True
      end.
Proof.
  unfold Validator.validate, Validator.RegisterUserDto.
  rewrite in_flat_map. split.
  - intros ([property cs] & Hin & Hc). cbv beta iota in Hc.
    apply in_map_iff in Hc as (c & Hpair & Hc).
    destruct Hin as [[= <- <-]|[[= <- <-]|[[= <- <-]|[]]]];
      try discriminate Hpair.
    injection Hpair as ->.
    apply list_elem_of_In, list_elem_of_filter in Hc as [Hc _].
    unfold Validator.satisfies in Hc.
    destruct (dto !! "password") as [secret|]; [|done].
    by apply Nat.leb_gt in Hc.
  - intros Hshort. exists ("password", [Validator.MinLength 6]).
    split; [right; right; by left|]. cbv beta iota.
    apply in_map, list_elem_of_In, list_elem_of_filter. split.
    + unfold Validator.satisfies.
      destruct (dto !! "password") as [secret|]; [|done].
      by apply Nat.leb_gt.
    + by left.
Qed.

(** C4, as the code has it: a secret shorter than 6 characters violates the
    MinLength(6) rule declared on RegisterUserDto.password, which is what
    validation of the request reports; create itself has no such check, so
    when it is called with such a secret on a store that answers and a free
    identity key, it returns the new account's view and the account is
    inserted. *)
Theorem short_secret_is_a_dto_rule `{Platform}
    (dto : Obj) (secret : string) (w : World) :
  dto !! "password" = Some secret -> (String.length secret < 6)%nat ->
  In ("password", Validator.MinLength 6)
     (Validator.validate Validator.RegisterUserDto dto)
  /\ (healthy w -> ~ registered (dto !! "email") w ->
        create dto w =
          (Return (delete "password" (account_of dto secret (ticks w))),
           inserted (account_of dto secret (ticks w)) (advance 2 w))).
Proof.
  intros Hsecret Hshort. split.
  - apply validate_password_rule. by rewrite Hsecret.
  - intros Hw Hfree. by apply create_fresh.
Qed.

(** Bob's three-character secret. *)
Lemma short_secret_is_a_dto_rule_witness :
  In ("password", Validator.MinLength 6)
     (Validator.validate Validator.RegisterUserDto Demo.bob_short)
  /\ @create Demo.platform Demo.bob_short Demo.ann_world =
       (Return (delete "password"
                  (@account_of Demo.platform Demo.bob_short "abc" 2)),
        inserted (@account_of Demo.platform Demo.bob_short "abc" 2)
                 (advance 2 Demo.ann_world)).
Proof.
  destruct (@short_secret_is_a_dto_rule Demo.platform Demo.bob_short "abc"
              Demo.ann_world eq_refl) as [Hrule Hcreate].
  - cbn. lia.
  - split; [exact Hrule|]. apply Hcreate; [reflexivity | by_evaluation].
Defined.

(** C4 fails as stated: create is given a three-character secret and an
    empty, answering store; it throws nothing and the account is created,
    with the hash of that secret. *)
Lemma create_accepts_short_secret :
  Demo.bob_short !! "password" = Some "abc"
  /\ (String.length "abc" < 6)%nat
  /\ (forall error,
        fst (@create Demo.platform Demo.bob_short Demo.empty_world)
        <> Throw error)
  /\ users (snd (@create Demo.platform Demo.bob_short Demo.empty_world))
     = [@account_of Demo.platform Demo.bob_short "abc" 0]
  /\ @account_of Demo.platform Demo.bob_short "abc" 0 !! "password"
     = Some (@bcrypt_hash Demo.platform "abc" 10 0).
Proof.
  split; [reflexivity|]. split; [cbn; lia|].
  rewrite (@create_fresh Demo.platform Demo.bob_short "abc")
    by (reflexivity || by_evaluation).
  split; [discriminate|]. split; [reflexivity|]. apply account_of_password.
Qed.

(** ** The stored hash and the identity key *)

Section CreateThenLogin.
Context {platform : Platform}.

Lemma first_match_of_inserted (email : option string) (doc : Obj) (w : World) :
  ~ registered email w -> doc !! "email" = email ->
  head (filter (has_email email) (users (inserted doc (advance 2 w))))
  = Some doc.
Proof.
  intros Hfree Hdoc. cbn. rewrite filter_app, filter_none by done.
  rewrite filter_cons. by destruct (decide (has_email email doc)).
Qed.

Lemma unregistered_after_insert (email : option string) (doc : Obj) (w : World) :
  ~ registered email w -> doc !! "email" <> email ->
  ~ registered email (inserted doc (advance 2 w)).
Proof.
  intros Hfree Hdoc. unfold registered. cbn. rewrite Exists_app.
  intros [Hold|Hnew]; [done|].
  inversion Hnew as [? ? Hhere|? ? Hnil]; [done | inversion Hnil].
Qed.

End CreateThenLogin.

(** C2: for a DTO with a display name, an identity key that is free and a
    secret of at least 6 characters, on a store that answers, create returns
    and the account it inserted holds under [password] a hash against which
    bcryptjs verifies that same secret; a login with the same key and
    secret then reaches the comparison and succeeds with the same view. *)
Theorem create_then_verify `{Platform}
    (name email secret : string) (w : World) :
  bcrypt_roundtrip ->
  (6 <= String.length secret)%nat ->
  healthy w -> ~ registered (Some email) w ->
  exists view stored hash w',
    create (createUserDto name email secret) w = (Return view, w')
    /\ users w' = (users w ++ [stored])%list
    /\ stored !! "email" = Some email
    /\ stored !! "password" = Some hash
    /\ bcrypt_compare secret hash = true
    /\ fst (compareSync (Some secret) (stored !! "password") w') = Return true
    /\ login (loginDto email secret) w' =
         (Return {| user := view;
                    token := jwt_sign (field "id" (stored !! "_id")) |}, w').
Proof.
  intros Hlaw _ Hw Hfree.
  set (dto := createUserDto name email secret).
  assert (Hsecret : dto !! "password" = Some secret) by done.
  assert (Hemail : dto !! "email" = Some email) by done.
  set (stored := account_of dto secret (ticks w)).
  exists (delete "password" stored), stored,
         (bcrypt_hash secret 10 (ticks w)), (inserted stored (advance 2 w)).
  assert (Hstored : stored !! "email" = Some email).
  { unfold stored. by rewrite account_of_email. }
  assert (Hhash : stored !! "password" = Some (bcrypt_hash secret 10 (ticks w)))
    by apply account_of_password.
  repeat split; try done.
  - apply create_fresh; [done | done | by rewrite Hemail].
  - rewrite Hhash. cbn. unfold ret. by rewrite Hlaw.
  - apply (login_right_password _ stored secret
             (bcrypt_hash secret 10 (ticks w))); try done.
    by apply first_match_of_inserted.
Qed.

Lemma prefix_of_append (s rest : string) :
  String.prefix s (s +:+ rest) = true.
Proof.
  induction s as [|c s IH]; [by destruct rest|].
  change (String.prefix (String c s) (String c (s +:+ rest)) = true).
  simpl. destruct (Ascii.ascii_dec c c); [exact IH | congruence].
Qed.

Lemma prefix_of_append_append (s mark rest : string) :
  String.prefix (s +:+ mark) (s +:+ mark +:+ rest) = true.
Proof.
  induction s as [|c s IH]; [exact (prefix_of_append mark rest)|].
  change (String.prefix (String c (s +:+ mark))
                        (String c (s +:+ mark +:+ rest)) = true).
  simpl. destruct (Ascii.ascii_dec c c); [exact IH | congruence].
Qed.

(** The demonstration platform verifies what it hashed. *)
Lemma demo_bcrypt_roundtrip : @bcrypt_roundtrip Demo.platform.
Proof. intros secret rounds t. apply prefix_of_append_append. Qed.

(** Ann registers on the empty store and then logs in. *)
Lemma create_then_verify_witness :
  exists view stored hash w',
    @create Demo.platform (createUserDto "Ann" "Ann@X.io" "s3cret!")
            Demo.empty_world = (Return view, w')
    /\ users w' = (users Demo.empty_world ++ [stored])%list
    /\ stored !! "email" = Some "Ann@X.io"
    /\ stored !! "password" = Some hash
    /\ @bcrypt_compare Demo.platform "s3cret!" hash = true
    /\ fst (@compareSync Demo.platform (Some "s3cret!")
                         (stored !! "password") w') = Return true
    /\ @login Demo.platform (loginDto "Ann@X.io" "s3cret!") w' =
         (Return {| user := view;
                    token := @jwt_sign Demo.platform
                               (field "id" (stored !! "_id")) |}, w').
Proof.
  apply (@create_then_verify Demo.platform "Ann" "Ann@X.io" "s3cret!"
           Demo.empty_world demo_bcrypt_roundtrip).
  - cbn. lia.
  - reflexivity.
  - by_evaluation.
Defined.

(** C8, as the code has it: create stores the identity key exactly as the
    DTO gives it and login looks accounts up by that exact string.  After a
    create under one key, the stored account and the returned view carry
    the key unchanged; a login under any other spelling that was not
    registered before is an unknown identity; and a create under such a
    spelling is accepted as a further account. *)
Theorem identity_key_is_kept_verbatim `{Platform}
    (dto : Obj) (secret : string) (w : World) :
  dto !! "password" = Some secret ->
  healthy w -> ~ registered (dto !! "email") w ->
  exists view stored w',
    create dto w = (Return view, w')
    /\ users w' = (users w ++ [stored])%list
    /\ stored !! "email" = dto !! "email"
    /\ view !! "email" = dto !! "email"
    /\ (forall credentials,
          credentials !! "email" <> dto !! "email" ->
          ~ registered (credentials !! "email") w ->
          login credentials w' =
            (Throw (UnauthorizedException "Not valid credentials"), w'))
    /\ (forall other secret',
          other !! "password" = Some secret' ->
          other !! "email" <> dto !! "email" ->
          ~ registered (other !! "email") w ->
          exists view' stored',
            fst (create other w') = Return view'
            /\ users (snd (create other w'))
               = (users w ++ [stored; stored'])%list
            /\ stored' !! "email" = other !! "email").
Proof.
  intros Hsecret Hw Hfree.
  set (stored := account_of dto secret (ticks w)).
  set (w' := inserted stored (advance 2 w)).
  assert (Hstored : stored !! "email" = dto !! "email")
    by apply account_of_email.
  exists (delete "password" stored), stored, w'.
  split; [by apply create_fresh|]. split; [done|]. split; [done|].
  split; [by rewrite lookup_delete_ne|]. split.
  - intros credentials Hother Hunreg. apply login_unknown_email; [done|].
    apply unregistered_after_insert; [done | congruence].
  - intros other secret' Hsecret' Hother Hunreg.
    exists (delete "password" (account_of other secret' (ticks w'))),
           (account_of other secret' (ticks w')).
    rewrite (create_fresh other secret' w'); [| done | done |].
    + cbn. rewrite <- app_assoc. split; [done|]. split; [done|].
      apply account_of_email.
    + apply unregistered_after_insert; [done | congruence].
Qed.

(** Ann registers as Ann@X.io on the empty store. *)
Lemma identity_key_is_kept_verbatim_witness :
  exists view stored w',
    @create Demo.platform Demo.ann Demo.empty_world = (Return view, w')
    /\ users w' = (users Demo.empty_world ++ [stored])%list
    /\ stored !! "email" = Some "Ann@X.io"
    /\ view !! "email" = Some "Ann@X.io"
    /\ @login Demo.platform (loginDto "ann@x.io" "s3cret!") w' =
         (Throw (UnauthorizedException "Not valid credentials"), w')
    /\ exists view' stored',
         fst (@create Demo.platform Demo.ann_lower w') = Return view'
         /\ users (snd (@create Demo.platform Demo.ann_lower w'))
            = (users Demo.empty_world ++ [stored; stored'])%list
         /\ stored' !! "email" = Some "ann@x.io".
Proof.
  destruct (@identity_key_is_kept_verbatim Demo.platform Demo.ann "s3cret!"
              Demo.empty_world eq_refl eq_refl)
    as (view & stored & w' & Hcreate & Husers & Hstored & Hview
        & Hlogin & Hsecond).
  - by_evaluation.
  - exists view, stored, w'. repeat split; try assumption.
    + apply Hlogin; [discriminate | by_evaluation].
    + apply (Hsecond Demo.ann_lower "s3cret!");
        [reflexivity | discriminate | by_evaluation].
Defined.

(** C8 fails as stated: after Ann registered as Ann@X.io the store holds the
    key with its capitals; a login as ann@x.io with her secret is refused as
    an unknown identity; and registering ann@x.io is not a duplicate but
    adds a second account. *)
Lemma case_variants_are_distinct_accounts :
  map (fun doc : Obj => doc !! "email") (users Demo.ann_world)
  = [Some "Ann@X.io"]
  /\ fst (@login Demo.platform (loginDto "Ann@X.io" "s3cret!") Demo.ann_world)
     = Return {| user := delete "password" Demo.ann_account;
                 token := "jwt.oid1" |}
  /\ fst (@login Demo.platform (loginDto "ann@x.io" "s3cret!") Demo.ann_world)
     = Throw (UnauthorizedException "Not valid credentials")
  /\ fst (@create Demo.platform Demo.ann_lower Demo.ann_world)
     = Return (delete "password"
                 (@account_of Demo.platform Demo.ann_lower "s3cret!" 2))
  /\ map (fun doc : Obj => doc !! "email")
         (users (snd (@create Demo.platform Demo.ann_lower Demo.ann_world)))
     = [Some "Ann@X.io"; Some "ann@x.io"].
Proof. repeat split; vm_compute; reflexivity. Qed.

(** ** The generated secret *)

Lemma floor_of_scaled_draw (r : Q) (n : Z) :
  unit_draw r -> (0 < n)%Z ->
  (0 <= Math_floor (Qmult r (inject_Z n)) < n)%Z.
Proof.
  intros [Hlo Hhi] Hn. destruct r as [a b].
  unfold Qle, Qlt in *. cbn in *.
  rewrite Z.mul_1_r in Hlo, Hhi. rewrite Z.mul_1_l in Hhi.
  rewrite Pos.mul_1_r. split.
  - apply Z.div_pos; nia.
  - apply Z.div_lt_upper_bound; nia.
Qed.

Lemma get_below_length (s : string) (i : nat) :
  (i < String.length s)%nat ->
  exists c, String.get i s = Some c /\ In c (String.list_ascii_of_string s).
Proof.
  revert i. induction s as [|a s IH]; intros i Hi; cbn in Hi; [lia|].
  destruct i as [|i]; cbn.
  - exists a. auto.
  - destruct (IH i) as (c & Hget & Hin); [lia|]. exists c. auto.
Qed.

Lemma banco_is_alphanumeric : alphanumeric banco.
Proof. reflexivity. Qed.

Lemma banco_charAt (i : Z) :
  (0 <= i < Z.of_nat (String.length banco))%Z ->
  exists c, charAt banco i = String c "" /\ alphanumeric_char c = true.
Proof.
  intros [Hlo Hhi]. unfold charAt.
  destruct (Z.ltb_spec i 0) as [|_]; [lia|].
  destruct (get_below_length banco (Z.to_nat i)) as (c & -> & Hin); [lia|].
  exists c. split; [done|].
  pose proof banco_is_alphanumeric as Hall. unfold alphanumeric in Hall.
  rewrite forallb_forall in Hall. by apply Hall.
Qed.

Lemma append_assoc (s t u : string) : (s +:+ t) +:+ u = s +:+ t +:+ u.
Proof.
  induction s as [|a s IH]; [done|].
  change (String a ((s +:+ t) +:+ u) = String a (s +:+ t +:+ u)).
  by rewrite IH.
Qed.

Lemma append_empty_r (s : string) : s +:+ "" = s.
Proof.
  induction s as [|a s IH]; [done|].
  change (String a (s +:+ "") = String a s). by rewrite IH.
Qed.

Section Generated.
Context {platform : Platform}.

Lemma createRandomPassword_loop_step (todo : nat) (pass : string) (w : World) :
  createRandomPassword_loop (S todo) pass w
  = createRandomPassword_loop todo
      (pass +:+ charAt banco
         (Math_floor (Qmult (random_at (ticks w))
                            (inject_Z (Z.of_nat (String.length banco))))))
      (advance 1 w).
Proof. reflexivity. Qed.

Lemma advance_advance (n m : nat) (w : World) :
  advance n (advance m w) = advance (n + m) w.
Proof. unfold advance. cbn. f_equal. lia. Qed.

(** The loop always runs to its end, whatever the draws are. *)
Lemma createRandomPassword_loop_returns (todo : nat) (pass : string) (w : World) :
  exists generated,
    createRandomPassword_loop todo pass w = (Return generated, advance todo w).
Proof.
  revert pass w. induction todo as [|todo IH]; intros pass w.
  - exists pass. by destruct w.
  - rewrite createRandomPassword_loop_step.
    edestruct IH as (generated & ->). exists generated.
    rewrite advance_advance. do 2 f_equal. lia.
Qed.

(** With draws in [0, 1) every round appends one character of the bank. *)
Lemma createRandomPassword_loop_spec (todo : nat) (pass : string) (w : World) :
  (forall k, (k < todo)%nat -> unit_draw (random_at (k + ticks w))) ->
  exists suffix,
    createRandomPassword_loop todo pass w
    = (Return (pass +:+ suffix), advance todo w)
    /\ String.length suffix = todo /\ alphanumeric suffix.
Proof.
  revert pass w. induction todo as [|todo IH]; intros pass w Hdraws.
  - exists "". split; [|done]. cbn. unfold ret.
    rewrite append_empty_r. by destruct w.
  - rewrite createRandomPassword_loop_step.
    destruct (banco_charAt
                (Math_floor (Qmult (random_at (ticks w))
                                   (inject_Z (Z.of_nat (String.length banco))))))
      as (c & Hc & Halnum).
    { apply floor_of_scaled_draw; [|done]. apply (Hdraws 0%nat). lia. }
    rewrite Hc.
    edestruct (IH (pass +:+ String c "")) as (suffix & -> & Hlen & Hsuffix).
    { intros k Hk. cbn.
      replace (k + S (ticks w))%nat with (S k + ticks w)%nat by lia.
      apply Hdraws. lia. }
    exists (String c suffix). split; [|split].
    + rewrite advance_advance, append_assoc. do 2 f_equal. lia.
    + cbn. by rewrite Hlen.
    + unfold alphanumeric in *. cbn. by rewrite Halnum, Hsuffix.
Qed.

Lemma createRandomPassword_spec (longitud : nat) (w : World) :
  (forall k, (k < longitud)%nat -> unit_draw (random_at (k + ticks w))) ->
  exists generated,
    createRandomPassword longitud w = (Return generated, advance longitud w)
    /\ String.length generated = longitud /\ alphanumeric generated.
Proof.
  intros Hdraws. unfold createRandomPassword.
  destruct (createRandomPassword_loop_spec longitud "" w Hdraws)
    as (suffix & Hrun & Hlen & Halnum).
  by exists suffix.
Qed.

End Generated.

(** ** The object register passes to create *)

Lemma spread_after_password (generated : string) (dto : Obj) :
  spread_after {[ "password" := generated ]} dto !! "password"
  = Some (default generated (dto !! "password")).
Proof.
  unfold spread_after. destruct (dto !! "password") as [own|] eqn:Hown.
  - by apply lookup_union_Some_l.
  - rewrite lookup_union_r by done. apply lookup_singleton_eq.
Qed.

Lemma spread_after_other (generated : string) (dto : Obj) (name : string) :
  name <> "password" ->
  spread_after {[ "password" := generated ]} dto !! name = dto !! name.
Proof.
  intros Hne. unfold spread_after. by apply lookup_union_l, lookup_singleton_ne.
Qed.

(** ** Registration with a generated secret *)

Section Register.
Context {platform : Platform}.

(** What create leaves behind: the console as it was, and at most one more
    document, built from the DTO it was given. *)
Lemma create_effects (dto : Obj) (w : World) :
  console (snd (create dto w)) = console w
  /\ (users (snd (create dto w)) = users w
      \/ exists secret,
           dto !! "password" = Some secret
           /\ users (snd (create dto w))
              = (users w ++ [account_of dto secret (ticks w)])%list).
Proof.
  destruct (dto !! "password") as [secret|] eqn:Hsecret.
  - rewrite (create_run dto secret) by done. cbn.
    destruct (store_fault w) as [fault|]; [by auto|].
    destruct (decide (registered (dto !! "email") w)); [by auto|].
    cbn. split; [done|]. right. by exists secret.
  - rewrite create_without_secret by done. auto.
Qed.

Lemma create_view_has_no_password (dto view : Obj) (w w' : World) :
  create dto w = (Return view, w') -> view !! "password" = None.
Proof.
  destruct (dto !! "password") as [secret|] eqn:Hsecret.
  - rewrite (create_run dto secret) by done. cbn.
    destruct (store_fault w) as [fault|]; [done|].
    destruct (decide (registered (dto !! "email") w)); [done|].
    intros [= <- _]. apply lookup_delete_eq.
  - by rewrite create_without_secret.
Qed.

(** register, once the secret is generated. *)
Lemma register_run (dto : Obj) (generated : string) (w w1 : World) :
  createRandomPassword 8 w = (Return generated, w1) ->
  register dto w =
    match create (spread_after {[ "password" := generated ]} dto)
                 (snd (console_log generated w1)) with
    | (Return view, w') =>
        (Return {| user := view;
                   token := jwt_sign (field "id" (view !! "_id")) |}, w')
    | (Throw error, w') =>
        (match error_response error with
         | Some (statusCode, message) =>
             if decide (statusCode = 400%Z)
             then Throw (BadRequestException message)
             else Throw (InternalServerErrorException "Internal server error")
         | None =>
             Throw (TypeError
                      "Cannot read properties of undefined (reading 'statusCode')")
         end, w')
    end.
Proof.
  intros Hgen. unfold register, try_catch. unfold bind at 1. rewrite Hgen.
  unfold bind at 1. cbn [console_log snd]. unfold bind at 1.
  destruct (create _ _) as [[view|error] w']; [done|].
  destruct (error_response error) as [[statusCode message]|]; [|done].
  by destruct (decide (statusCode = 400%Z)).
Qed.

Lemma register_world (dto : Obj) (generated : string) (w w1 : World) :
  createRandomPassword 8 w = (Return generated, w1) ->
  snd (register dto w)
  = snd (create (spread_after {[ "password" := generated ]} dto)
                (snd (console_log generated w1))).
Proof.
  intros Hgen. rewrite (register_run dto generated w w1) by done.
  by destruct (create _ _) as [[view|error] w'].
Qed.

Lemma register_view_has_no_password (dto : Obj) (response : LoginResponse)
    (w w' : World) :
  register dto w = (Return response, w') ->
  user response !! "password" = None
  /\ token response = jwt_sign (field "id" (user response !! "_id")).
Proof.
  destruct (createRandomPassword_loop_returns 8 "" w) as (generated & Hgen).
  rewrite (register_run dto generated w (advance 8 w)) by done.
  destruct (create _ _) as [[view|error] w''] eqn:Hcreate.
  - intros [= <- _]. cbn. split; [|done].
    by eapply create_view_has_no_password.
  - destruct (error_response error) as [[statusCode message]|]; [|done].
    by destruct (decide (statusCode = 400%Z)).
Qed.

(** A registration that returns: the response is the inserted document
    without its password, and the token signed for its id. *)
Lemma register_success (dto : Obj) (generated : string)
    (response : LoginResponse) (w : World) :
  createRandomPassword 8 w = (Return generated, advance 8 w) ->
  fst (register dto w) = Return response ->
  let stored :=
    account_of (spread_after {[ "password" := generated ]} dto)
               (default generated (dto !! "password")) (8 + ticks w) in
  users (snd (register dto w)) = (users w ++ [stored])%list
  /\ user response = delete "password" stored
  /\ token response = jwt_sign {[ "id" := ObjectId (9 + ticks w) ]}.
Proof.
  intros Hgen. rewrite (register_run dto generated w (advance 8 w)) by done.
  rewrite (create_run _ (default generated (dto !! "password")))
    by apply spread_after_password.
  cbv zeta. cbn [console_log snd store_fault advance ticks users].
  destruct (store_fault w) as [fault|].
  { by destruct (decide (error_code fault = Some 11000%Z)). }
  destruct (decide (registered _ _)); [done|].
  intros [= <-]. cbn. split; [done|]. split; [done|].
  by rewrite lookup_delete_ne, account_of_id.
Qed.

End Register.

(** C6, as the code has it: with draws of Math.random in [0, 1), register
    generates a string of 8 characters, each an upper-case letter, a
    lower-case letter or a digit; it writes that string to the console (one
    line, whether or not the registration then succeeds); the secret is no
    component of a successful result, which is the inserted account
    without its [password] field (the store's id and timestamp and the
    fields of the DTO other than password, nothing else) together with the
    token signed for that id alone; and the store gains at most one
    document, whose [password] field is a bcrypt hash at cost 10 and whose
    other fields are the store's id and timestamp and the fields of the
    DTO. *)
Theorem register_generated_secret `{Platform} (dto : Obj) (w : World) :
  (forall k, (k < 8)%nat -> unit_draw (random_at (k + ticks w))) ->
  exists generated,
    createRandomPassword 8 w = (Return generated, advance 8 w)
    /\ String.length generated = 8%nat
    /\ alphanumeric generated
    /\ console (snd (register dto w)) = (console w ++ [generated])%list
    /\ (forall response,
          fst (register dto w) = Return response ->
          user response !! "password" = None
          /\ token response = jwt_sign (field "id" (user response !! "_id")))
    /\ (users (snd (register dto w)) = users w
        \/ exists stored plaintext t,
             users (snd (register dto w)) = (users w ++ [stored])%list
             /\ stored !! "password" = Some (bcrypt_hash plaintext 10 t)
             /\ forall name : string,
                  name <> "_id" -> name <> "createdAt" ->
                  name <> "password" -> stored !! name = dto !! name)
    /\ (forall response,
          fst (register dto w) = Return response ->
          exists stored,
            users (snd (register dto w)) = (users w ++ [stored])%list
            /\ user response = delete "password" stored
            /\ user response !! "_id" = Some (ObjectId (9 + ticks w))
            /\ user response !! "createdAt" = Some (Date_now (9 + ticks w))
            /\ (forall name : string,
                  name <> "_id" -> name <> "createdAt" ->
                  user response !! name = delete "password" dto !! name)
            /\ token response = jwt_sign {[ "id" := ObjectId (9 + ticks w) ]}).
Proof.
  intros Hdraws.
  destruct (createRandomPassword_spec 8 w Hdraws)
    as (generated & Hgen & Hlen & Halnum).
  exists generated. split; [done|]. split; [done|]. split; [done|].
  split; [|split; [|split]].
  - rewrite (register_world dto generated w (advance 8 w)) by done.
    by destruct (create_effects
                   (spread_after {[ "password" := generated ]} dto)
                   (snd (console_log generated (advance 8 w))))
      as [-> _].
  - intros response Hret.
    destruct (register dto w) as [outcome w'] eqn:Hrun. cbn in Hret. subst.
    by eapply register_view_has_no_password.
  - rewrite (register_world dto generated w (advance 8 w)) by done.
    destruct (create_effects
                (spread_after {[ "password" := generated ]} dto)
                (snd (console_log generated (advance 8 w))))
      as [_ [Hsame|(secret & Hsecret & Hnew)]]; [by left|].
    right. eexists _, secret, _. split; [exact Hnew|].
    split; [apply account_of_password|].
    intros name Hid Hat Hpw. rewrite account_of_other by done.
    by apply spread_after_other.
  - intros response Hret.
    destruct (register_success dto generated response w Hgen Hret)
      as (Husers & Huser & Htoken).
    eexists. split; [exact Husers|]. split; [exact Huser|].
    rewrite Huser. split; [|split; [|split; [|exact Htoken]]].
    + by rewrite lookup_delete_ne, account_of_id.
    + rewrite lookup_delete_ne by done. unfold account_of.
      rewrite lookup_insert_ne by done. apply lookup_insert_eq.
    + intros name Hid Hat. destruct (decide (name = "password")) as [->|Hpw].
      * by rewrite !lookup_delete_eq.
      * rewrite !lookup_delete_ne by done.
        rewrite account_of_other by done. by apply spread_after_other.
Qed.

(** Every draw of the demonstration platform lies in [0, 1). *)
Lemma demo_draws_are_unit (t : nat) : unit_draw (@random_at Demo.platform t).
Proof.
  pose proof (Nat.mod_upper_bound (17 * t + 5) 97) as Hmod.
  unfold unit_draw, Qle, Qlt. cbn [random_at Demo.platform Qnum Qden].
  lia.
Qed.

(** Ann is registered by an administrator on the empty store. *)
Lemma register_generated_secret_witness :
  fst (@register Demo.platform Demo.ann Demo.empty_world)
  = Return {| user := {[ "_id" := "oid9"; "createdAt" := "t9";
                         "email" := "Ann@X.io"; "name" := "Ann" ]};
              token := "jwt.oid9" |}
  /\ exists generated,
    @createRandomPassword Demo.platform 8 Demo.empty_world
    = (Return generated, advance 8 Demo.empty_world)
    /\ String.length generated = 8%nat
    /\ alphanumeric generated
    /\ console (snd (@register Demo.platform Demo.ann Demo.empty_world))
       = (console Demo.empty_world ++ [generated])%list
    /\ (forall response,
          fst (@register Demo.platform Demo.ann Demo.empty_world)
          = Return response ->
          user response !! "password" = None
          /\ token response
             = @jwt_sign Demo.platform (field "id" (user response !! "_id")))
    /\ (users (snd (@register Demo.platform Demo.ann Demo.empty_world))
        = users Demo.empty_world
        \/ exists stored plaintext t,
             users (snd (@register Demo.platform Demo.ann Demo.empty_world))
             = (users Demo.empty_world ++ [stored])%list
             /\ stored !! "password"
                = Some (@bcrypt_hash Demo.platform plaintext 10 t)
             /\ forall name : string,
                  name <> "_id" -> name <> "createdAt" ->
                  name <> "password" -> stored !! name = Demo.ann !! name)
    /\ (forall response,
          fst (@register Demo.platform Demo.ann Demo.empty_world)
          = Return response ->
          exists stored,
            users (snd (@register Demo.platform Demo.ann Demo.empty_world))
            = (users Demo.empty_world ++ [stored])%list
            /\ user response = delete "password" stored
            /\ user response !! "_id" = Some "oid9"
            /\ user response !! "createdAt" = Some "t9"
            /\ (forall name : string,
                  name <> "_id" -> name <> "createdAt" ->
                  user response !! name = delete "password" Demo.ann !! name)
            /\ token response = "jwt.oid9").
Proof.
  split; [vm_compute; reflexivity|].
  apply (@register_generated_secret Demo.platform Demo.ann Demo.empty_world).
  intros k _. apply demo_draws_are_unit.
Defined.

(** C6 fails as stated: the DTO satisfies every rule of RegisterUserDto and
    the registration succeeds; the generated secret is on the console
    afterwards, and the result handed to the caller is the view and the
    token, neither of which holds it. *)
Lemma register_logs_and_withholds_secret :
  Validator.validate Validator.RegisterUserDto Demo.ann = []
  /\ fst (@createRandomPassword Demo.platform 8 Demo.empty_world)
     = Return "DOYju5GR"
  /\ console (snd (@register Demo.platform Demo.ann Demo.empty_world))
     = ["DOYju5GR"]
  /\ fst (@register Demo.platform Demo.ann Demo.empty_world)
     = Return {| user := {[ "_id" := "oid9"; "createdAt" := "t9";
                            "email" := "Ann@X.io"; "name" := "Ann" ]};
                 token := "jwt.oid9" |}.
Proof. repeat split; vm_compute; reflexivity. Qed.

(** ** Outward views *)

Section Views.
Context {platform : Platform}.

Lemma login_view_has_no_password (dto : Obj) (response : LoginResponse)
    (w w' : World) :
  login dto w = (Return response, w') -> user response !! "password" = None.
Proof.
  unfold login, bind, findOne, with_store.
  destruct (store_fault w); [done|]. unfold ret at 1.
  destruct (head _) as [account|]; [|done].
  unfold compareSync.
  destruct (dto !! "password"), (account !! "password"); try done.
  unfold ret at 1. destruct (bcrypt_compare _ _); [|done].
  intros [= <- _]. apply lookup_delete_eq.
Qed.

End Views.

Lemma findAll_views_have_no_password (views : list Obj) (w w' : World) :
  findAll w = (Return views, w') ->
  Forall (fun view : Obj => view !! "password" = None) views.
Proof.
  unfold findAll, bind, find_all, with_store.
  destruct (store_fault w); [done|]. intros [= <- _].
  apply Forall_map, Forall_forall. intros doc _. apply lookup_delete_eq.
Qed.

Lemma findUserById_view_has_no_password (id : string) (view : Obj)
    (w w' : World) :
  findUserById id w = (Return view, w') -> view !! "password" = None.
Proof.
  unfold findUserById, bind, findById, with_store.
  destruct (store_fault w); [done|]. unfold ret at 1.
  destruct (head _) as [account|]; [|done].
  intros [= <- _]. apply lookup_delete_eq.
Qed.

Lemma field_lookup_other (name other : string) (v : option string) :
  name <> other -> field name v !! other = None.
Proof.
  intros Hne. destruct v; [by apply lookup_singleton_ne | apply lookup_empty].
Qed.

Lemma searchEmail_views_have_no_password (email : string) (views : list Obj)
    (w w' : World) :
  searchEmail email w = (Return views, w') ->
  Forall (fun view : Obj => view !! "password" = None) views.
Proof.
  unfold searchEmail. destruct (decide (email = "")).
  - by intros [= <- _].
  - unfold bind, find, with_store. destruct (store_fault w); [done|].
    intros [= <- _]. apply Forall_map, Forall_forall. intros doc _.
    by apply field_lookup_other.
Qed.

(** C1: whatever create, login, findAll, findUserById and searchEmail (and
    register) return, for every input, every state of the store and every
    caller, the account views in it have no [password] field: neither the
    stored hash nor the plaintext secret is handed out under it. *)
Theorem views_never_carry_password `{Platform} (w : World) :
  (forall dto view w',
     create dto w = (Return view, w') -> view !! "password" = None)
  /\ (forall dto response w',
        login dto w = (Return response, w') ->
        user response !! "password" = None)
  /\ (forall views w',
        findAll w = (Return views, w') ->
        Forall (fun view : Obj => view !! "password" = None) views)
  /\ (forall id view w',
        findUserById id w = (Return view, w') -> view !! "password" = None)
  /\ (forall email views w',
        searchEmail email w = (Return views, w') ->
        Forall (fun view : Obj => view !! "password" = None) views)
  /\ (forall dto response w',
        register dto w = (Return response, w') ->
        user response !! "password" = None).
Proof.
  split; [intros; by eapply create_view_has_no_password|].
  split; [intros; by eapply login_view_has_no_password|].
  split; [intros; by eapply findAll_views_have_no_password|].
  split; [intros; by eapply findUserById_view_has_no_password|].
  split; [intros; by eapply searchEmail_views_have_no_password|].
  intros dto response w' Hrun.
  by destruct (register_view_has_no_password dto response w w' Hrun).
Qed.

(** Every operation run once on Ann's world (create on the empty one): each
    returns, and what it returns has no [password] field, while the stored
    account has one. *)
Lemma views_never_carry_password_witness :
  (exists view w',
     @create Demo.platform Demo.ann Demo.empty_world = (Return view, w')
     /\ view !! "password" = None)
  /\ (exists response w',
        @login Demo.platform (loginDto "Ann@X.io" "s3cret!") Demo.ann_world
        = (Return response, w')
        /\ user response !! "password" = None)
  /\ (exists view w',
        findAll Demo.ann_world = (Return [view], w')
        /\ Forall (fun view : Obj => view !! "password" = None) [view])
  /\ (exists view w',
        findUserById "oid1" Demo.ann_world = (Return view, w')
        /\ view !! "password" = None)
  /\ (exists view w',
        searchEmail "Ann@X.io" Demo.ann_world = (Return [view], w')
        /\ Forall (fun view : Obj => view !! "password" = None) [view])
  /\ Forall (fun doc : Obj => is_Some (doc !! "password"))
            (users Demo.ann_world).
Proof.
  destruct (@views_never_carry_password Demo.platform Demo.empty_world)
    as (Hcreate & _).
  destruct (@views_never_carry_password Demo.platform Demo.ann_world)
    as (_ & Hlogin & HfindAll & HfindUserById & HsearchEmail & _).
  assert (Hrun1 : @create Demo.platform Demo.ann Demo.empty_world
                  = (Return (delete "password" Demo.ann_account),
                     Demo.ann_world))
    by (vm_compute; reflexivity).
  assert (Hrun2 : @login Demo.platform (loginDto "Ann@X.io" "s3cret!")
                         Demo.ann_world
                  = (Return {| user := delete "password" Demo.ann_account;
                               token := "jwt.oid1" |}, Demo.ann_world))
    by (vm_compute; reflexivity).
  assert (Hrun3 : findAll Demo.ann_world
                  = (Return [delete "password" Demo.ann_account],
                     Demo.ann_world))
    by (vm_compute; reflexivity).
  assert (Hrun4 : findUserById "oid1" Demo.ann_world
                  = (Return (delete "password" Demo.ann_account),
                     Demo.ann_world))
    by (vm_compute; reflexivity).
  assert (Hrun5 : searchEmail "Ann@X.io" Demo.ann_world
                  = (Return [ {[ "email" := "Ann@X.io" ]} ], Demo.ann_world))
    by (vm_compute; reflexivity).
  split; [exact (ex_intro _ _ (ex_intro _ _ (conj Hrun1 (Hcreate _ _ _ Hrun1))))|].
  split; [exact (ex_intro _ _ (ex_intro _ _ (conj Hrun2 (Hlogin _ _ _ Hrun2))))|].
  split; [exact (ex_intro _ _ (ex_intro _ _ (conj Hrun3 (HfindAll _ _ Hrun3))))|].
  split; [exact (ex_intro _ _ (ex_intro _ _
                   (conj Hrun4 (HfindUserById _ _ _ Hrun4))))|].
  split; [exact (ex_intro _ _ (ex_intro _ _
                   (conj Hrun5 (HsearchEmail _ _ _ Hrun5))))|].
  by_evaluation.
Defined.

(** ** Which secret register hands to create *)

(** The DTO is spread after the generated password in the object register
    passes to create, so a password field of the DTO wins: on a store that
    answers and a free identity key, the inserted account holds the hash of
    the DTO's own password when it has one, and of the generated secret
    only when it has none. *)
Theorem register_hashes_dto_password_first `{Platform} (dto : Obj) (w : World) :
  healthy w -> ~ registered (dto !! "email") w ->
  exists generated stored,
    createRandomPassword 8 w = (Return generated, advance 8 w)
    /\ users (snd (register dto w)) = (users w ++ [stored])%list
    /\ stored !! "password"
       = Some (bcrypt_hash (default generated (dto !! "password")) 10
                           (8 + ticks w)).
Proof.
  intros Hw Hfree.
  destruct (createRandomPassword_loop_returns 8 "" w) as (generated & Hgen).
  exists generated. eexists. split; [exact Hgen|].
  rewrite (register_world dto generated w (advance 8 w)) by exact Hgen.
  rewrite (create_fresh _ (default generated (dto !! "password"))).
  - split; [reflexivity|]. apply account_of_password.
  - apply spread_after_password.
  - exact Hw.
  - by rewrite spread_after_other.
Qed.

(** Ann's DTO has a password, Cat's has none. *)
Lemma register_hashes_dto_password_first_witness :
  (exists generated stored,
     @createRandomPassword Demo.platform 8 Demo.empty_world
     = (Return generated, advance 8 Demo.empty_world)
     /\ users (snd (@register Demo.platform Demo.ann Demo.empty_world))
        = (users Demo.empty_world ++ [stored])%list
     /\ stored !! "password" = Some (@bcrypt_hash Demo.platform "s3cret!" 10 8))
  /\ (exists generated stored,
        @createRandomPassword Demo.platform 8 Demo.empty_world
        = (Return generated, advance 8 Demo.empty_world)
        /\ users (snd (@register Demo.platform Demo.cat_no_secret
                                 Demo.empty_world))
           = (users Demo.empty_world ++ [stored])%list
        /\ stored !! "password"
           = Some (@bcrypt_hash Demo.platform generated 10 8)).
Proof.
  split.
  - apply (@register_hashes_dto_password_first Demo.platform Demo.ann
             Demo.empty_world); [reflexivity | by_evaluation].
  - apply (@register_hashes_dto_password_first Demo.platform
             Demo.cat_no_secret Demo.empty_world);
      [reflexivity | by_evaluation].
Defined.

(** * Further properties of the service *)

(** ** createRandomPassword for any length *)

Lemma below_ceiling (longitud : Q) (x : nat) :
  Qlt (inject_Z (Z.of_nat x)) longitud <-> (x < loop_rounds longitud)%nat.
Proof.
  unfold loop_rounds. split.
  - intros Hlt. assert (Z.of_nat x < Qceiling longitud)%Z; [|lia].
    rewrite Zlt_Qlt. eapply Qlt_le_trans; [exact Hlt | apply Qle_ceiling].
  - intros Hlt. assert (Hz : (Z.of_nat x <= Qceiling longitud - 1)%Z) by lia.
    rewrite Zle_Qle in Hz. eapply Qle_lt_trans; [exact Hz|].
    apply Qceiling_lt.
Qed.

Section GeneratedInGeneral.
Context {platform : Platform}.

(** The loop with the source's test makes the rounds that are left. *)
Lemma createRandomPassword_from_rounds (longitud : Q) (x : nat)
    (pass : string) (w : World) :
  createRandomPassword_from longitud x pass w
  = createRandomPassword_loop (loop_rounds longitud - x) pass w.
Proof.
  remember (loop_rounds longitud - x)%nat as todo eqn:Htodo.
  revert x pass w Htodo. induction todo as [|todo IH]; intros x pass w Htodo.
  - simp createRandomPassword_from.
    destruct (Qlt_le_dec (inject_Z (Z.of_nat x)) longitud) as [Hlt|Hge].
    + pose proof (proj1 (below_ceiling _ _) Hlt). lia.
    + reflexivity.
  - simp createRandomPassword_from.
    destruct (Qlt_le_dec (inject_Z (Z.of_nat x)) longitud) as [Hlt|Hge].
    + rewrite createRandomPassword_loop_step. unfold createRandomPassword_from_unfold_clause_1.
      unfold Math_random. unfold bind, tick, ret. rewrite (IH (S x)) by lia.
      reflexivity.
    + exfalso. apply (Qle_not_lt _ _ Hge).
      apply (proj2 (below_ceiling _ _)). lia.
Qed.

End GeneratedInGeneral.

(** createRandomPassword(longitud) for a finite number up to 65536 (far
    inside the range where the counter is exact and the string fits): the
    loop makes one round per natural number below longitud, so none for a
    bound that is zero or negative and three for 2.5; it draws from
    Math.random once per round and changes nothing else; with draws in
    [0, 1) the result has as many characters as rounds, all of them
    letters or digits, and is the empty string when no round is made; and
    at a natural number the loop is the one register runs. *)
Theorem createRandomPassword_rounds `{Platform} (longitud : Q) (w : World) :
  Qle longitud (inject_Z 65536) ->
  (forall k, (k < loop_rounds longitud)%nat ->
             unit_draw (random_at (k + ticks w))) ->
  exists generated,
    createRandomPassword_number longitud w
    = (Return generated, advance (loop_rounds longitud) w)
    /\ String.length generated = loop_rounds longitud
    /\ alphanumeric generated
    /\ (Qle longitud 0 -> generated = "" /\ loop_rounds longitud = 0%nat)
    /\ (forall n : nat,
          Qeq longitud (inject_Z (Z.of_nat n)) ->
          loop_rounds longitud = n
          /\ createRandomPassword n w = (Return generated, advance n w)).
Proof.
  intros _ Hdraws.
  destruct (createRandomPassword_spec (loop_rounds longitud) w Hdraws)
    as (generated & Hrun & Hlen & Halnum).
  exists generated. split; [|split; [exact Hlen|split; [exact Halnum|split]]].
  - unfold createRandomPassword_number.
    rewrite createRandomPassword_from_rounds, Nat.sub_0_r. exact Hrun.
  - intros Hle.
    assert (Hnone : loop_rounds longitud = 0%nat).
    { unfold loop_rounds.
      assert (Qceiling longitud <= 0)%Z; [|lia].
      change 0%Z with (Qceiling (inject_Z 0)).
      by apply Qceiling_resp_le. }
    split; [|exact Hnone]. rewrite Hnone in Hlen.
    by destruct generated.
  - intros n Hn.
    assert (Hrounds : loop_rounds longitud = n).
    { unfold loop_rounds. rewrite (Qceiling_comp _ _ Hn), Qceiling_Z. lia. }
    split; [exact Hrounds|]. by rewrite <- Hrounds.
Qed.

(** A bound of 2.5 after Ann registered: three rounds. *)
Lemma createRandomPassword_rounds_witness :
  exists generated,
    @createRandomPassword_number Demo.platform (5 # 2) Demo.ann_world
    = (Return generated, advance 3 Demo.ann_world)
    /\ String.length generated = 3%nat
    /\ alphanumeric generated.
Proof.
  destruct (@createRandomPassword_rounds Demo.platform (5 # 2) Demo.ann_world)
    as (generated & Hrun & Hlen & Halnum & _).
  - discriminate.
  - intros k _. apply demo_draws_are_unit.
  - exists generated. split; [exact Hrun|]. split; [exact Hlen | exact Halnum].
Defined.

(** ** What register throws *)

Section RegisterErrors.
Context {platform : Platform}.

(** The world in which register calls create. *)
Lemma register_reaches_create (dto : Obj) (w : World) :
  exists generated,
    createRandomPassword 8 w = (Return generated, advance 8 w)
    /\ spread_after {[ "password" := generated ]} dto !! "password"
       = Some (default generated (dto !! "password"))
    /\ spread_after {[ "password" := generated ]} dto !! "email"
       = dto !! "email".
Proof.
  destruct (createRandomPassword_loop_returns 8 "" w) as (generated & Hgen).
  exists generated. split; [exact Hgen|].
  split; [apply spread_after_password | by apply spread_after_other].
Qed.

End RegisterErrors.

(** register maps the failures of create: a taken identity key is thrown on
    as BadRequestException with create's message, naming the key; a store
    failure with any code other than 11000 becomes
    InternalServerErrorException('Internal server error'); nothing else is
    ever thrown by register, in particular no TypeError from reading
    error.response; and a registration that throws inserts nothing. *)
Theorem register_maps_create_failures `{Platform} (dto : Obj) (w : World) :
  (healthy w -> registered (dto !! "email") w ->
     fst (register dto w)
     = Throw (BadRequestException
                (template (dto !! "email") +:+ " already exist!")))
  /\ (forall fault, store_fault w = Some fault ->
        error_code fault <> Some 11000%Z ->
        fst (register dto w)
        = Throw (InternalServerErrorException "Internal server error"))
  /\ (forall error, fst (register dto w) = Throw error ->
        (error = BadRequestException
                   (template (dto !! "email") +:+ " already exist!")
         \/ error = InternalServerErrorException "Internal server error")
        /\ users (snd (register dto w)) = users w).
Proof.
  destruct (register_reaches_create dto w)
    as (generated & Hgen & Hsecret & Hemail).
  rewrite (register_run dto generated w (advance 8 w)) by exact Hgen.
  set (w2 := snd (console_log generated (advance 8 w))).
  assert (Hfault : store_fault w2 = store_fault w) by done.
  assert (Husers : users w2 = users w) by done.
  rewrite (create_run _ (default generated (dto !! "password")))
    by exact Hsecret.
  rewrite Hemail. cbv zeta. rewrite Hfault.
  assert (Hreg2 : registered (dto !! "email") w2
                  <-> registered (dto !! "email") w)
    by (unfold registered; by rewrite Husers).
  clearbody w2. split; [|split].
  - intros Hw Hreg. rewrite Hw.
    destruct (decide (registered (dto !! "email") w2)); [done | tauto].
  - intros fault -> Hcode.
    by destruct (decide (error_code fault = Some 11000%Z)).
  - intros error. destruct (store_fault w) as [fault|].
    + destruct (decide (error_code fault = Some 11000%Z));
        cbn; intros [= <-]; auto.
    + destruct (decide (registered (dto !! "email") w2));
        cbn; [intros [= <-]; auto | discriminate].
Qed.

(** Ann is registered a second time; then the store is down. *)
Lemma register_maps_create_failures_witness :
  fst (@register Demo.platform Demo.ann Demo.ann_world)
  = Throw (BadRequestException "Ann@X.io already exist!")
  /\ fst (@register Demo.platform Demo.ann Demo.down_world)
     = Throw (InternalServerErrorException "Internal server error")
  /\ users (snd (@register Demo.platform Demo.ann Demo.ann_world))
     = users Demo.ann_world.
Proof.
  destruct (@register_maps_create_failures Demo.platform Demo.ann
              Demo.ann_world) as (Hdup & _ & Hany).
  destruct (@register_maps_create_failures Demo.platform Demo.ann
              Demo.down_world) as (_ & Hdown & _).
  assert (Hthrown : fst (@register Demo.platform Demo.ann Demo.ann_world)
                    = Throw (BadRequestException "Ann@X.io already exist!"))
    by (apply Hdup; [reflexivity | by_evaluation]).
  split; [exact Hthrown|]. split.
  - apply (Hdown (Error "connect ETIMEDOUT")); [reflexivity | discriminate].
  - exact (proj2 (Hany _ Hthrown)).
Defined.

(** ** Lookups read and never write *)

(** login, findAll, searchEmail and findUserById leave the world exactly as
    they found it, whether they return or throw: no document is inserted or
    changed, nothing is logged and no fresh value is drawn. *)
Theorem lookups_change_nothing `{Platform} (w : World) :
  (forall dto, snd (login dto w) = w)
  /\ snd (findAll w) = w
  /\ (forall email, snd (searchEmail email w) = w)
  /\ (forall id, snd (findUserById id w) = w).
Proof.
  repeat split.
  - intros dto. unfold login, bind, findOne, with_store.
    destruct (store_fault w); [done|]. unfold ret at 1.
    destruct (head _) as [account|]; [|done].
    unfold compareSync.
    destruct (dto !! "password"), (account !! "password"); try done.
    unfold ret at 1. by destruct (bcrypt_compare _ _).
  - unfold findAll, bind, find_all, with_store.
    by destruct (store_fault w).
  - intros email. unfold searchEmail.
    destruct (decide (email = "")); [done|].
    unfold bind, find, with_store. by destruct (store_fault w).
  - intros id. unfold findUserById, bind, findById, with_store.
    destruct (store_fault w); [done|]. unfold ret at 1.
    by destruct (head _).
Qed.

(** Unlike create, the lookups have no catch block: when the store fails,
    login, findAll, findUserById and searchEmail (on a non-empty query)
    throw the store's own error, unchanged. *)
Theorem lookups_throw_store_fault_raw `{Platform}
    (fault : Exception) (w : World) :
  store_fault w = Some fault ->
  (forall dto, fst (login dto w) = Throw fault)
  /\ fst (findAll w) = Throw fault
  /\ (forall email, email <> "" -> fst (searchEmail email w) = Throw fault)
  /\ (forall id, fst (findUserById id w) = Throw fault).
Proof.
  intros Hfault. repeat split.
  - intros dto. unfold login, bind, findOne.
    by rewrite (with_store_fault _ w fault).
  - unfold findAll, bind, find_all. by rewrite (with_store_fault _ w fault).
  - intros email Hne. unfold searchEmail.
    destruct (decide (email = "")); [done|].
    unfold bind, find. by rewrite (with_store_fault _ w fault).
  - intros id. unfold findUserById, bind, findById.
    by rewrite (with_store_fault _ w fault).
Qed.

(** With the store down, every lookup surfaces the timeout itself. *)
Lemma lookups_throw_store_fault_raw_witness :
  fst (@login Demo.platform (loginDto "Ann@X.io" "s3cret!") Demo.down_world)
  = Throw (Error "connect ETIMEDOUT")
  /\ fst (findAll Demo.down_world) = Throw (Error "connect ETIMEDOUT")
  /\ fst (searchEmail "Ann@X.io" Demo.down_world)
     = Throw (Error "connect ETIMEDOUT")
  /\ fst (findUserById "oid1" Demo.down_world)
     = Throw (Error "connect ETIMEDOUT").
Proof.
  destruct (@lookups_throw_store_fault_raw Demo.platform
              (Error "connect ETIMEDOUT") Demo.down_world eq_refl)
    as (Hlogin & HfindAll & HsearchEmail & HfindUserById).
  split; [apply Hlogin|]. split; [exact HfindAll|].
  split; [by apply HsearchEmail | apply HfindUserById].
Defined.

(** ** What create writes *)

(** create inserts only when it returns: if it throws, the collection is as
    before; if it returns a view, exactly one document was appended, the
    view is that document without its [password] field, the document holds
    a password and the DTO's email, and every earlier document is
    untouched.  In both cases nothing is logged and the store's condition
    is unchanged. *)
Theorem create_inserts_only_on_success `{Platform} (dto : Obj) (w : World) :
  (forall error,
     fst (create dto w) = Throw error -> users (snd (create dto w)) = users w)
  /\ (forall view,
        fst (create dto w) = Return view ->
        exists stored,
          users (snd (create dto w)) = (users w ++ [stored])%list
          /\ view = delete "password" stored
          /\ is_Some (stored !! "password")
          /\ stored !! "email" = dto !! "email")
  /\ console (snd (create dto w)) = console w
  /\ store_fault (snd (create dto w)) = store_fault w.
Proof.
  destruct (dto !! "password") as [secret|] eqn:Hsecret.
  - rewrite (create_run dto secret) by done. cbv zeta.
    destruct (store_fault w) as [fault|] eqn:Hfault.
    + repeat split; try done; cbn; by rewrite Hfault.
    + destruct (decide (registered (dto !! "email") w)).
      * repeat split; try done.
      * repeat split; try done. intros view [= <-].
        exists (account_of dto secret (ticks w)).
        split; [done|]. split; [done|].
        split; [|apply account_of_email].
        rewrite account_of_password. by eexists.
  - rewrite create_without_secret by done. repeat split; done.
Qed.

(** Bob's account is appended to Ann's world; Ann's second attempt leaves
    it alone. *)
Lemma create_inserts_only_on_success_witness :
  users (snd (@create Demo.platform Demo.ann Demo.ann_world))
  = users Demo.ann_world
  /\ exists stored,
       users (snd (@create Demo.platform Demo.bob_short Demo.ann_world))
       = (users Demo.ann_world ++ [stored])%list
       /\ delete "password"
            (@account_of Demo.platform Demo.bob_short "abc" 2)
          = delete "password" stored
       /\ is_Some (stored !! "password")
       /\ stored !! "email" = Demo.bob_short !! "email".
Proof.
  destruct (@create_inserts_only_on_success Demo.platform Demo.ann
              Demo.ann_world) as (Hthrow & _).
  destruct (@create_inserts_only_on_success Demo.platform Demo.bob_short
              Demo.ann_world) as (_ & Hreturn & _).
  split.
  - apply (Hthrow (BadRequestException "Ann@X.io already exist!")).
    rewrite (@create_run Demo.platform Demo.ann "s3cret!") by reflexivity.
    cbv zeta. change (store_fault Demo.ann_world) with (@None Exception).
    destruct (decide (registered (Demo.ann !! "email") Demo.ann_world))
      as [|Hno]; [reflexivity|].
    exfalso. apply Hno. by_evaluation.
  - apply Hreturn.
    rewrite (@create_fresh Demo.platform Demo.bob_short "abc");
      [reflexivity | reflexivity | reflexivity | by_evaluation].
Defined.

(** ** create composed with the other operations *)

Section CreateComposed.
Context {platform : Platform}.

Lemma first_id_of_inserted (id : string) (doc : Obj) (w : World) :
  ~ Exists (has_id id) (users w) -> doc !! "_id" = Some id ->
  head (filter (has_id id) (users (inserted doc (advance 2 w)))) = Some doc.
Proof.
  intros Hfresh Hdoc. cbn. rewrite filter_app, filter_none by done.
  rewrite filter_cons. by destruct (decide (has_id id doc)).
Qed.

End CreateComposed.

(** A created account can be fetched by the id of the returned view: when
    create succeeds and no earlier account has the id the driver assigned,
    findUserById on the view's [_id] returns that same view. *)
Theorem create_then_findUserById `{Platform}
    (dto : Obj) (secret : string) (w : World) :
  dto !! "password" = Some secret ->
  healthy w -> ~ registered (dto !! "email") w ->
  ~ Exists (has_id (ObjectId (S (ticks w)))) (users w) ->
  exists view w',
    create dto w = (Return view, w')
    /\ view !! "_id" = Some (ObjectId (S (ticks w)))
    /\ findUserById (ObjectId (S (ticks w))) w' = (Return view, w').
Proof.
  intros Hsecret Hw Hfree Hfresh.
  set (stored := account_of dto secret (ticks w)).
  exists (delete "password" stored), (inserted stored (advance 2 w)).
  split; [by apply create_fresh|].
  assert (Hid : stored !! "_id" = Some (ObjectId (S (ticks w))))
    by apply account_of_id.
  split; [by rewrite lookup_delete_ne|].
  unfold findUserById, bind, findById.
  rewrite with_store_healthy by exact Hw. unfold ret at 1.
  by rewrite (first_id_of_inserted _ stored).
Qed.

(** Bob is created in Ann's world and fetched by his id. *)
Lemma create_then_findUserById_witness :
  exists view w',
    @create Demo.platform Demo.bob_short Demo.ann_world = (Return view, w')
    /\ view !! "_id" = Some "oid3"
    /\ findUserById "oid3" w' = (Return view, w').
Proof.
  apply (@create_then_findUserById Demo.platform Demo.bob_short "abc"
           Demo.ann_world);
    [reflexivity | reflexivity | by_evaluation | by_evaluation].
Defined.

(** The same DTO cannot be created twice: once create has succeeded, a
    second create with that DTO is refused with BadRequestException naming
    the email, and the collection still holds the one account. *)
Theorem create_twice_is_refused `{Platform}
    (dto : Obj) (secret : string) (w : World) :
  dto !! "password" = Some secret ->
  healthy w -> ~ registered (dto !! "email") w ->
  exists view w',
    create dto w = (Return view, w')
    /\ fst (create dto w')
       = Throw (BadRequestException
                  (template (dto !! "email") +:+ " already exist!"))
    /\ users (snd (create dto w')) = users w'.
Proof.
  intros Hsecret Hw Hfree.
  set (stored := account_of dto secret (ticks w)).
  set (w' := inserted stored (advance 2 w)).
  exists (delete "password" stored), w'.
  split; [by apply create_fresh|].
  rewrite (create_run dto secret w') by done. cbv zeta.
  change (store_fault w') with (store_fault w). rewrite Hw.
  destruct (decide (registered (dto !! "email") w')) as [|Hno]; [done|].
  exfalso. apply Hno. unfold registered, w'. cbn. apply Exists_app. right.
  left. apply account_of_email.
Qed.

(** Bob twice. *)
Lemma create_twice_is_refused_witness :
  exists view w',
    @create Demo.platform Demo.bob_short Demo.ann_world = (Return view, w')
    /\ fst (@create Demo.platform Demo.bob_short w')
       = Throw (BadRequestException "bob@x.io already exist!")
    /\ users (snd (@create Demo.platform Demo.bob_short w')) = users w'.
Proof.
  apply (@create_twice_is_refused Demo.platform Demo.bob_short "abc"
           Demo.ann_world); [reflexivity | reflexivity | by_evaluation].
Defined.

(** A created account shows up in the listings: after a successful create
    under a non-empty email, findAll returns the views it returned before
    together with the new view (in whatever order the store lists them),
    and searchEmail on that email returns exactly one entry, the email
    itself. *)
Theorem created_account_is_listed `{Platform}
    (dto : Obj) (secret email : string) (w : World) :
  dto !! "password" = Some secret ->
  dto !! "email" = Some email -> email <> "" ->
  healthy w -> ~ registered (Some email) w ->
  exists view w' before after,
    create dto w = (Return view, w')
    /\ findAll w = (Return before, w)
    /\ findAll w' = (Return after, w')
    /\ Permutation after (view :: before)
    /\ searchEmail email w' = (Return [ {[ "email" := email ]} ], w').
Proof.
  intros Hsecret Hemail Hne Hw Hfree.
  set (stored := account_of dto secret (ticks w)).
  set (w' := inserted stored (advance 2 w)).
  assert (Hstored : stored !! "email" = Some email)
    by (unfold stored; by rewrite account_of_email).
  exists (delete "password" stored), w',
    (map (delete "password") (users w)),
    (map (delete "password") (users w ++ [stored])).
  split; [apply create_fresh; [done | done | by rewrite Hemail]|].
  split; [|split; [|split]].
  - unfold findAll, bind, find_all. by rewrite with_store_healthy.
  - unfold findAll, bind, find_all. by rewrite with_store_healthy.
  - rewrite map_app. cbn. symmetry. apply Permutation_cons_append.
  - unfold searchEmail. destruct (decide (email = "")); [done|].
    unfold bind, find. rewrite with_store_healthy by exact Hw.
    unfold ret, w'. cbn. rewrite filter_app, filter_none by done.
    rewrite filter_cons.
    destruct (decide (has_email (Some email) stored)); [|done].
    cbn. unfold toJSON. by rewrite Hstored.
Qed.

(** Bob joins Ann. *)
Lemma created_account_is_listed_witness :
  exists view w' before after,
    @create Demo.platform Demo.bob_short Demo.ann_world = (Return view, w')
    /\ findAll Demo.ann_world = (Return before, Demo.ann_world)
    /\ findAll w' = (Return after, w')
    /\ Permutation after (view :: before)
    /\ searchEmail "bob@x.io" w' = (Return [ {[ "email" := "bob@x.io" ]} ], w').
Proof.
  apply (@created_account_is_listed Demo.platform Demo.bob_short "abc"
           "bob@x.io" Demo.ann_world);
    [reflexivity | reflexivity | discriminate | reflexivity | by_evaluation].
Defined.

(** ** register composed with login *)

(** The account register returns is the account a login returns
    afterwards: when register succeeds, a login under the same email with
    the secret the account was given (the DTO's own password if it has one,
    the generated secret otherwise) succeeds and returns the same user
    view, provided bcryptjs verifies what it hashed.  (Each call signs a
    token of its own; nothing is said about the two tokens.) *)
Theorem register_then_login `{Platform}
    (dto : Obj) (email : string) (w : World) :
  bcrypt_roundtrip ->
  dto !! "email" = Some email ->
  healthy w -> ~ registered (Some email) w ->
  exists generated registered_as logged_in_as w',
    createRandomPassword 8 w = (Return generated, advance 8 w)
    /\ register dto w = (Return registered_as, w')
    /\ login (loginDto email (default generated (dto !! "password"))) w'
       = (Return logged_in_as, w')
    /\ user logged_in_as = user registered_as.
Proof.
  intros Hlaw Hemail Hw Hfree.
  destruct (register_reaches_create dto w)
    as (generated & Hgen & Hsecret & Hmail).
  set (secret := default generated (dto !! "password")) in *.
  set (dto' := spread_after {[ "password" := generated ]} dto) in *.
  set (w2 := snd (console_log generated (advance 8 w))).
  assert (Hw2 : healthy w2) by exact Hw.
  assert (Hfree2 : ~ registered (Some email) w2) by exact Hfree.
  set (stored := account_of dto' secret (ticks w2)).
  assert (Hstored : stored !! "email" = Some email).
  { unfold stored. by rewrite account_of_email, Hmail. }
  exists generated,
    {| user := delete "password" stored;
       token := jwt_sign (field "id" (delete "password" stored !! "_id")) |},
    {| user := delete "password" stored;
       token := jwt_sign (field "id" (stored !! "_id")) |},
    (inserted stored (advance 2 w2)).
  split; [exact Hgen|]. split; [|split; [|reflexivity]].
  - rewrite (register_run dto generated w (advance 8 w)) by exact Hgen.
    fold dto' w2. by rewrite (create_fresh dto' secret w2);
      [| exact Hsecret | exact Hw2 | by rewrite Hmail, Hemail].
  - apply (login_right_password _ stored secret
             (bcrypt_hash secret 10 (ticks w2))).
    + exact Hw2.
    + change (loginDto email secret !! "email") with (Some email).
      by apply first_match_of_inserted.
    + reflexivity.
    + apply account_of_password.
    + apply Hlaw.
Qed.

(** Cat is registered without a password of her own and logs in with the
    generated one. *)
Lemma register_then_login_witness :
  exists generated registered_as logged_in_as w',
    @createRandomPassword Demo.platform 8 Demo.ann_world
    = (Return generated, advance 8 Demo.ann_world)
    /\ @register Demo.platform Demo.cat_no_secret Demo.ann_world
       = (Return registered_as, w')
    /\ @login Demo.platform (loginDto "cat@x.io" generated) w'
       = (Return logged_in_as, w')
    /\ user logged_in_as = user registered_as.
Proof.
  apply (@register_then_login Demo.platform Demo.cat_no_secret "cat@x.io"
           Demo.ann_world demo_bcrypt_roundtrip);
    [reflexivity | reflexivity | by_evaluation].
Defined.

(** ** A DTO without a secret *)

(** create needs a password in the DTO: without one the hashing call throws
    before the store is reached, the catch block turns that into
    InternalServerErrorException, and nothing is inserted, whether or not
    the email is taken and whether or not the store answers. *)
Theorem create_without_password_is_internal_error `{Platform}
    (dto : Obj) (w : World) :
  dto !! "password" = None ->
  fst (create dto w)
  = Throw (InternalServerErrorException
             "Something went wrong with the server!")
  /\ users (snd (create dto w)) = users w.
Proof. intros Hnone. by rewrite create_without_secret. Qed.

(** Cat's DTO has no password. *)
Lemma create_without_password_is_internal_error_witness :
  fst (@create Demo.platform Demo.cat_no_secret Demo.ann_world)
  = Throw (InternalServerErrorException
             "Something went wrong with the server!")
  /\ users (snd (@create Demo.platform Demo.cat_no_secret Demo.ann_world))
     = users Demo.ann_world.
Proof.
  apply (@create_without_password_is_internal_error Demo.platform
           Demo.cat_no_secret Demo.ann_world).
  reflexivity.
Defined.
